(** * geojson2h3: conversion between GeoJSON polygons and sets of H3 cells

    A shallow embedding of [geojson2h3-1-2-0-1.js] and the properties of its
    fill and emit functions.

    Conventions of the embedding:
    - a JavaScript number is a binary64 float ([PrimFloat.float]);
    - an array is a [list]; a [String[]] of H3 indexes is a [list string];
    - a call that may [throw] returns a [completion];
    - the [h3] library the file calls into is an interface ([H3]), every
      statement holds for all of its implementations. *)

From Stdlib Require Import List String ZArith Bool Arith Lia.
From Stdlib Require Import Floats.PrimFloat.
Import ListNotations.

Set Implicit Arguments.

Local Open Scope string_scope.
Local Open Scope list_scope.

(** ** Completions: normal return or [throw] *)

(** The file throws [new Error(message)]; [TypeError] is what the engine
    raises on a member access through [undefined]. *)
Inductive exn : Type :=
| Error (message : string)
| TypeError.

Inductive completion (A : Type) : Type :=
| Return (value : A)
| Throw (e : exn).

Arguments Return {A} value.
Arguments Throw {A} e.

Definition bind {A B : Type} (c : completion A) (k : A -> completion B) : completion B :=
  match c with
  | Return a => k a
  | Throw e => Throw e
  end.

Notation "x <- c ;; k" := (bind c (fun x => k))
  (at level 61, c at next level, right associativity).
Notation "' p <- c ;; k" := (bind c (fun x => let p := x in k))
  (at level 61, p pattern, c at next level, right associativity).

(** [array.map(f)] where [f] may throw: elements are visited left to right
    and the first [throw] leaves the loop. *)
Definition Array_map {A B : Type} (f : A -> completion B) : list A -> completion (list B) :=
  fix go (array : list A) : completion (list B) :=
    match array with
    | [] => Return []
    | x :: rest => y <- f x ;; ys <- go rest ;; Return (y :: ys)
    end.

(** ** Constants of the module *)

Definition FEATURE : string := "Feature".
Definition FEATURE_COLLECTION : string := "FeatureCollection".
Definition POLYGON : string := "Polygon".
Definition MULTI_POLYGON : string := "MultiPolygon".

(** ** Data *)

(** An H3 index, as the library hands it out: a string. *)
Definition CellId : Type := string.

(** [Number[]], [Number[][]], [Number[][][]]. *)
Definition Position : Type := list float.
Definition Ring : Type := list Position.
Definition Polygon : Type := list Ring.

(** ** The [Set] of ECMAScript, restricted to strings

    A [Set] keeps its members in insertion order, and [add] of a member that
    is already present changes nothing. *)
Module JsSet.

Definition t : Type := list CellId.

Definition has (s : t) (x : CellId) : bool := existsb (String.eqb x) s.

Definition add (s : t) (x : CellId) : t := if has s x then s else s ++ [x].

(** [new Set(iterable)]; [new Set(null)] is the empty set. *)
Definition new (iterable : option (list CellId)) : t :=
  match iterable with
  | None => []
  | Some values => fold_left add values []
  end.

(** [Array.from(set)] *)
Definition to_array (s : t) : list CellId := s.

End JsSet.

(** ** Private utilities *)

(** [out.push(x)] for each [x] of [array], in order. *)
Definition push_all (out array : list CellId) : list CellId :=
  fold_left (fun out x => out ++ [x]) array out.

(** [flatten(arrays)]: [out] starts as [null], becomes the first array and then
    receives the members of the following ones; the result is read back from
    a [Set] of [out].  The arrays handed to [flatten] are fresh results of
    calls, so that the aliasing of [out] with [arrays[0]] is not observable. *)
Definition flatten (arrays : list (list CellId)) : list CellId :=
  let out :=
    fold_left
      (fun (out : option (list CellId)) (array : list CellId) =>
         match out with
         | Some o => Some (push_all o array)
         | None => Some array
         end)
      arrays None in
  JsSet.to_array (JsSet.new out).

(** [position[i]] used as a summand: a missing member is [undefined], which
    [+=] turns into [NaN]. *)
Definition summand (position : Position) (i : nat) : float := nth i position nan.

(** [centroid(polygon)].  [polygon[0]] of an array without members is
    [undefined] and reading its [length] throws. *)
Definition centroid (polygon : Polygon) : completion (float * float) :=
  match nth_error polygon 0 with
  | None => Throw TypeError
  | Some loop =>
      let '(lngSum, latSum, count) :=
        fold_left
          (fun '(lngSum, latSum, count) (vertex : Position) =>
             ((lngSum + summand vertex 0)%float,
              (latSum + summand vertex 1)%float,
              (count + 1)%float))
          loop (0%float, 0%float, 0%float) in
      Return ((lngSum / count)%float, (latSum / count)%float)
  end.

(** ** The [h3] library

    The four functions of [h3] that the module calls.  The second argument of
    [h3ToGeoBoundary] is [true] at one call site and the object
    [{geoJson: true}] at the other. *)
Inductive FormatArg : Type :=
| ArgTrue
| ArgGeoJsonObject.

Class H3 : Type := {
  polyfill : Polygon -> Z -> bool -> list CellId;
  geoToH3 : float -> float -> Z -> CellId;
  h3ToGeoBoundary : CellId -> FormatArg -> Ring;
  h3SetToMultiPolygon : list CellId -> bool -> list Polygon
}.

(** ** GeoJSON objects *)

(** A geometry object.  Its [type] tag and the shape of its [coordinates] go
    together: [Number[][][]] under "Polygon", [Number[][][][]] under
    "MultiPolygon".  [OtherGeometry] is a geometry of which only the tag is
    known: a Point, a LineString, or an object with no [coordinates]. *)
Inductive Geometry : Type :=
| PolygonGeometry (coordinates : Polygon)
| MultiPolygonGeometry (coordinates : list Polygon)
| OtherGeometry (type : string).

Definition geometry_type (geometry : Geometry) : string :=
  match geometry with
  | PolygonGeometry _ => POLYGON
  | MultiPolygonGeometry _ => MULTI_POLYGON
  | OtherGeometry type => type
  end.

(** [options]: an object whose member [ensureOutput] may be missing. *)
Record Options : Type := { ensureOutput : option bool }.

Definition empty_options : Options := {| ensureOutput := None |}.

(** The truth value of an optional boolean member ([undefined] is falsy). *)
Definition truthy (member : option bool) : bool :=
  match member with
  | Some b => b
  | None => false
  end.

(** Whether a member is there. *)
Definition present {A : Type} (member : option A) : bool :=
  match member with
  | Some _ => true
  | None => false
  end.

(** [value === s] for a possibly [undefined] string. *)
Definition strict_eq (value : option string) (s : string) : bool :=
  match value with
  | Some v => v =? s
  | None => false
  end.

(** The string a possibly [undefined] string turns into under [+]. *)
Definition to_string (value : option string) : string :=
  match value with
  | Some s => s
  | None => "undefined"
  end.

Section GeoJSON2H3.

Context {Properties : Type}.

(** [{}] *)
Variable empty_object : Properties.

Context {h3 : H3}.

#[local] Unset Elimination Schemes.

(** A GeoJSON object, input or output: a Feature or a FeatureCollection, or
    any other object with a [type].  A member that is [None] is absent. *)
Inductive GeoJSON : Type := mkGeoJSON {
  type : string;
  id : option CellId;
  properties : option Properties;
  geometry : option Geometry;
  features : option (list GeoJSON)
}.

#[local] Set Elimination Schemes.

(** *** Fill: GeoJSON to cells *)

(** The function [featureToH3Set] maps over the polygons of a feature. *)
Definition polygonToH3Set (resolution : Z) (options : Options) (polygon : Polygon)
  : completion (list CellId) :=
  let result := polyfill polygon resolution true in
  if negb (List.length result =? 0)%nat || negb (truthy (ensureOutput options)) then
    Return result
  else
    '(lng, lat) <- centroid polygon ;;
    Return [geoToH3 lat lng resolution].

(** [featureCollectionToH3Set(featureCollection, resolution)], over the
    function it calls on each member.  [!features] holds of a missing member;
    an array, also an empty one, is truthy.  The call on a member passes two
    arguments, so that [options] is [undefined] there. *)
Definition featureCollectionToH3Set_over
    (featureToH3Set : GeoJSON -> Z -> option Options -> completion (list CellId))
    (featureCollection : GeoJSON) (resolution : Z) : completion (list CellId) :=
  match features featureCollection with
  | None => Throw (Error "No features found")
  | Some features =>
      arrays <- Array_map (fun feature => featureToH3Set feature resolution None) features ;;
      Return (flatten arrays)
  end.

(** [geometryType === POLYGON ? [geometry.coordinates] : geometry.coordinates],
    evaluated once [geometryType] is known to be one of the two tags.  An
    [OtherGeometry] that carries such a tag has no polygons to offer, and
    the mapping over [undefined] fails. *)
Definition polygons_of (geometry : option Geometry) : completion (list Polygon) :=
  match geometry with
  | Some (PolygonGeometry coordinates) => Return [coordinates]
  | Some (MultiPolygonGeometry coordinates) => Return coordinates
  | _ => Throw TypeError
  end.

(** [featureToH3Set(feature, resolution, options)] *)
Fixpoint featureToH3Set (feature : GeoJSON) (resolution : Z) (options : option Options)
  {struct feature} : completion (list CellId) :=
  let options := match options with Some o => o | None => empty_options end in
  let type := type feature in
  let geometry := geometry feature in
  let geometryType := option_map geometry_type geometry in
  if type =? FEATURE_COLLECTION then
    featureCollectionToH3Set_over featureToH3Set feature resolution
  else if negb (type =? FEATURE) then
    Throw (Error ("Unhandled type: " ++ type))
  else if negb (strict_eq geometryType POLYGON) && negb (strict_eq geometryType MULTI_POLYGON) then
    Throw (Error ("Unhandled geometry type: " ++ to_string geometryType))
  else
    polygons <- polygons_of geometry ;;
    arrays <- Array_map (polygonToH3Set resolution options) polygons ;;
    Return (flatten arrays).

Definition featureCollectionToH3Set : GeoJSON -> Z -> completion (list CellId) :=
  featureCollectionToH3Set_over featureToH3Set.

(** *** Emit: cells to GeoJSON *)

(** [properties === void 0] replaces a missing argument by [{}]. *)
Definition or_empty (properties : option Properties) : Properties :=
  match properties with
  | Some p => p
  | None => empty_object
  end.

(** [h3ToFeature(h3Index, properties)] *)
Definition h3ToFeature (h3Index : CellId) (properties : option Properties) : GeoJSON :=
  let properties := or_empty properties in
  let coordinates := [h3ToGeoBoundary h3Index ArgTrue] in
  {| type := FEATURE;
     id := Some h3Index;
     properties := Some properties;
     geometry := Some (PolygonGeometry coordinates);
     features := None |}.

(** [h3SetToFeature(hexagons, properties)].  [type] and [coordinates] are
    both chosen by [isMultiPolygon]; [polygons[0] || []] is the first outline,
    or [[]] when there is none. *)
Definition h3SetToFeature (hexagons : list CellId) (properties : option Properties) : GeoJSON :=
  let properties := or_empty properties in
  let polygons := h3SetToMultiPolygon hexagons true in
  let isMultiPolygon := (1 <? List.length polygons)%nat in
  {| type := FEATURE;
     id := None;
     properties := Some properties;
     geometry :=
       Some (if isMultiPolygon
             then MultiPolygonGeometry polygons
             else PolygonGeometry (nth 0 polygons []));
     features := None |}.

(** [h3SetToMultiPolygonFeature(hexagons, properties)] *)
Definition h3SetToMultiPolygonFeature (hexagons : list CellId) (properties : option Properties)
  : GeoJSON :=
  let properties := or_empty properties in
  let coordinates :=
    map (fun h3Index => [h3ToGeoBoundary h3Index ArgGeoJsonObject]) hexagons in
  {| type := FEATURE;
     id := None;
     properties := Some properties;
     geometry := Some (MultiPolygonGeometry coordinates);
     features := None |}.

(** [h3SetToFeatureCollection(hexagons, getProperties)]: the loop pushes one
    feature per index onto [features]. *)
Definition h3SetToFeatureCollection
    (hexagons : list CellId) (getProperties : option (CellId -> Properties)) : GeoJSON :=
  let features :=
    fold_left
      (fun (features : list GeoJSON) (h3Index : CellId) =>
         let properties :=
           match getProperties with
           | Some f => f h3Index
           | None => empty_object
           end in
         features ++ [h3ToFeature h3Index (Some properties)])
      hexagons [] in
  {| type := FEATURE_COLLECTION;
     id := None;
     properties := None;
     geometry := None;
     features := Some features |}.

(** The names of the members an object has, in the order of the literals. *)
Definition members (object : GeoJSON) : list string :=
  ["type"]
  ++ (if present (id object) then ["id"] else [])
  ++ (if present (properties object) then ["properties"] else [])
  ++ (if present (geometry object) then ["geometry"] else [])
  ++ (if present (features object) then ["features"] else []).

End GeoJSON2H3.

Arguments GeoJSON Properties : clear implicits.

(** ** The vocabulary of the specification *)

(** Ordered union with a membership set: one pass over the cells, keeping a
    cell when it has not been seen so far. *)
Fixpoint first_occurrences_from (seen cells : list CellId) : list CellId :=
  match cells with
  | [] => []
  | c :: rest =>
      if JsSet.has seen c
      then first_occurrences_from seen rest
      else c :: first_occurrences_from (c :: seen) rest
  end.

(** Union-deduplication of cell sets: every distinct cell once, in the order
    of first occurrence across the concatenation of the sets. *)
Definition union_dedup (sets : list (list CellId)) : list CellId :=
  first_occurrences_from [] (List.concat sets).

(** The position of the first occurrence of a cell (the length, if none). *)
Fixpoint index_of (c : CellId) (cells : list CellId) : nat :=
  match cells with
  | [] => 0
  | x :: rest => if x =? c then 0 else S (index_of c rest)
  end.

(** A natural number as a float, counting up from zero. *)
Fixpoint float_of_nat (n : nat) : float :=
  match n with
  | O => 0%float
  | S m => (float_of_nat m + 1)%float
  end.

(** The sum of floats, left to right from zero. *)
Definition float_sum (values : list float) : float :=
  fold_left PrimFloat.add values 0%float.

(** The unweighted mean of the vertices of a ring, as [(lng, lat)]: the sum of
    each coordinate over all vertices, divided by their number. *)
Definition vertex_mean (ring : Ring) : float * float :=
  ((float_sum (map (fun vertex => summand vertex 0) ring) / float_of_nat (List.length ring))%float,
   (float_sum (map (fun vertex => summand vertex 1) ring) / float_of_nat (List.length ring))%float).

(** ** The kinds of error, by message *)

Definition missing_features_error (e : exn) : Prop :=
  e = Error "No features found".

Definition unsupported_feature_type_error (e : exn) : Prop :=
  exists type, e = Error ("Unhandled type: " ++ type).

Definition unsupported_geometry_type_error (e : exn) : Prop :=
  exists geometryType, e = Error ("Unhandled geometry type: " ++ geometryType).

(** ** A small grid and some objects, for examples

    A stand-in for [h3]: below resolution 9 no cell centre falls inside a
    polygon; from 9 on a triangle holds two cells and any larger ring two,
    one of them shared with the triangle. *)
Definition JsObject : Type := list (string * string).

Definition unit_hexagon : Ring :=
  [[0; 0]; [1; 0]; [2; 1]; [1; 2]; [0; 2]; [0; 0]]%float.

Definition tiny_h3 : H3 := {|
  polyfill := fun polygon resolution _ =>
    if (resolution <? 9)%Z then []
    else match polygon with
         | [] => []
         | outer :: _ =>
             if (List.length outer <=? 4)%nat
             then ["8928308280fffff"; "8928308280bffff"]
             else ["8928308280bffff"; "89283082803ffff"]
         end;
  geoToH3 := fun lat lng resolution =>
    if (lat <? lng)%float then "872830828ffffff" else "872830829ffffff";
  h3ToGeoBoundary := fun _ _ => unit_hexagon;
  h3SetToMultiPolygon := fun hexagons _ => map (fun _ => [unit_hexagon]) hexagons
|}.

Definition triangle : Polygon :=
  [[[0; 0]; [4; 0]; [0; 2]; [0; 0]]]%float.

Definition square : Polygon :=
  [[[0; 0]; [4; 0]; [4; 4]; [0; 4]; [0; 0]]]%float.

Definition triangle_feature : GeoJSON JsObject :=
  {| type := FEATURE;
     id := None;
     properties := Some [];
     geometry := Some (PolygonGeometry triangle);
     features := None |}.

Definition two_polygons_feature : GeoJSON JsObject :=
  {| type := FEATURE;
     id := None;
     properties := Some [];
     geometry := Some (MultiPolygonGeometry [triangle; square]);
     features := None |}.

Definition point_feature : GeoJSON JsObject :=
  {| type := FEATURE;
     id := None;
     properties := Some [];
     geometry := Some (OtherGeometry "Point");
     features := None |}.

Definition triangle_collection : GeoJSON JsObject :=
  {| type := FEATURE_COLLECTION;
     id := None;
     properties := None;
     geometry := None;
     features := Some [triangle_feature] |}.

Definition ensure_output : Options := {| ensureOutput := Some true |}.

Unset Implicit Arguments.

(** ** Facts about [Set] and [flatten] *)

Lemma has_In (s : list CellId) (x : CellId) : JsSet.has s x = true <-> In x s.
Proof.
  unfold JsSet.has. rewrite existsb_exists. split.
  - intros [y [Hy Heq]]. apply String.eqb_eq in Heq. now subst.
  - intros H. exists x. split; [assumption | apply String.eqb_refl].
Qed.

Lemma has_not_In (s : list CellId) (x : CellId) : JsSet.has s x = false <-> ~ In x s.
Proof.
  rewrite <- has_In. destruct (JsSet.has s x); split; congruence.
Qed.

Lemma push_all_app (array out : list CellId) : push_all out array = out ++ array.
Proof.
  unfold push_all. revert out.
  induction array as [| x array IH]; intros out; simpl.
  - now rewrite app_nil_r.
  - rewrite IH, <- app_assoc. reflexivity.
Qed.

(** The membership set matters only through its members. *)
Lemma first_occurrences_from_ext (cells seen seen' : list CellId) :
  (forall x, In x seen <-> In x seen') ->
  first_occurrences_from seen cells = first_occurrences_from seen' cells.
Proof.
  revert seen seen'.
  induction cells as [| c cells IH]; intros seen seen' Hext; simpl; [reflexivity |].
  assert (Hhas : JsSet.has seen c = JsSet.has seen' c).
  { destruct (JsSet.has seen' c) eqn:E.
    - apply has_In. apply Hext. now apply has_In.
    - apply has_not_In. rewrite Hext. now apply has_not_In. }
  rewrite Hhas. destruct (JsSet.has seen' c).
  - now apply IH.
  - f_equal. apply IH. intros x. simpl. now rewrite Hext.
Qed.

(** Adding the cells one by one to a [Set] appends their first occurrences. *)
Lemma fold_add_first_occurrences (cells s : list CellId) :
  fold_left JsSet.add cells s = s ++ first_occurrences_from s cells.
Proof.
  revert s.
  induction cells as [| c cells IH]; intros s; simpl.
  - now rewrite app_nil_r.
  - rewrite IH. unfold JsSet.add.
    destruct (JsSet.has s c) eqn:E; [reflexivity |].
    rewrite <- app_assoc. simpl. do 2 f_equal.
    apply first_occurrences_from_ext.
    intros x. rewrite in_app_iff. simpl. tauto.
Qed.

(** What the loop of [flatten] leaves in [out]. *)
Lemma flatten_loop_Some (arrays : list (list CellId)) (o : list CellId) :
  fold_left
    (fun (out : option (list CellId)) (array : list CellId) =>
       match out with
       | Some o => Some (push_all o array)
       | None => Some array
       end) arrays (Some o)
  = Some (o ++ List.concat arrays).
Proof.
  revert o.
  induction arrays as [| a arrays IH]; intros o; simpl.
  - now rewrite app_nil_r.
  - rewrite IH, push_all_app, <- app_assoc. reflexivity.
Qed.

(** [flatten] is the union-deduplication of its argument. *)
Lemma flatten_union_dedup (arrays : list (list CellId)) :
  flatten arrays = union_dedup arrays.
Proof.
  unfold flatten, union_dedup, JsSet.to_array.
  destruct arrays as [| a arrays]; simpl; [reflexivity |].
  rewrite flatten_loop_Some. simpl.
  now rewrite fold_add_first_occurrences.
Qed.

Lemma first_occurrences_from_In (cells seen : list CellId) (x : CellId) :
  In x (first_occurrences_from seen cells) <-> In x cells /\ ~ In x seen.
Proof.
  revert seen.
  induction cells as [| c cells IH]; intros seen; simpl; [tauto |].
  destruct (JsSet.has seen c) eqn:E.
  - apply has_In in E. rewrite IH. split.
    + tauto.
    + intros [[-> | H] Hn]; [contradiction | tauto].
  - apply has_not_In in E. simpl. rewrite IH. simpl. split.
    + intros [-> | [H Hn]]; [tauto |]. split; [tauto |]. intros Hs. apply Hn. now right.
    + intros [[-> | H] Hn]; [now left |].
      destruct (String.eqb_spec c x) as [-> | Hne]; [now left |].
      right. split; [assumption |]. intros [Heq | Hs]; [congruence | contradiction].
Qed.

Lemma first_occurrences_from_NoDup (cells seen : list CellId) :
  NoDup (first_occurrences_from seen cells).
Proof.
  revert seen.
  induction cells as [| c cells IH]; intros seen; simpl; [constructor |].
  destruct (JsSet.has seen c); [apply IH |].
  constructor; [| apply IH].
  rewrite first_occurrences_from_In. simpl. tauto.
Qed.

Lemma index_of_In_lt (c : CellId) (cells : list CellId) :
  In c cells -> index_of c cells < List.length cells.
Proof.
  induction cells as [| x cells IH]; simpl; [tauto |].
  intros H. destruct (String.eqb_spec x c) as [-> | Hne]; [lia |].
  destruct H as [-> | H]; [congruence |]. specialize (IH H). lia.
Qed.

(** Two kept cells stand in the order of their first occurrences. *)
Lemma first_occurrences_from_order (cells seen : list CellId) (x y : CellId) :
  In x cells -> ~ In x seen ->
  In y cells -> ~ In y seen ->
  (index_of x (first_occurrences_from seen cells) < index_of y (first_occurrences_from seen cells)
   <-> index_of x cells < index_of y cells).
Proof.
  revert seen.
  induction cells as [| c cells IH]; intros seen Hx Hxs Hy Hys; simpl; [tauto |].
  destruct (JsSet.has seen c) eqn:E.
  - apply has_In in E.
    destruct (String.eqb_spec c x) as [-> | Hcx]; [contradiction |].
    destruct (String.eqb_spec c y) as [-> | Hcy]; [contradiction |].
    destruct Hx as [-> | Hx]; [congruence |].
    destruct Hy as [-> | Hy]; [congruence |].
    pose proof (IH seen Hx Hxs Hy Hys) as Hord. lia.
  - simpl.
    destruct (String.eqb_spec c x) as [Hcx | Hcx];
      destruct (String.eqb_spec c y) as [Hcy | Hcy]; try lia.
    destruct Hx as [-> | Hx]; [congruence |].
    destruct Hy as [-> | Hy]; [congruence |].
    assert (Hx' : ~ In x (c :: seen)) by (simpl; intros [? | ?]; [congruence | contradiction]).
    assert (Hy' : ~ In y (c :: seen)) by (simpl; intros [? | ?]; [congruence | contradiction]).
    pose proof (IH (c :: seen) Hx Hx' Hy Hy') as Hord. lia.
Qed.

(** ** Facts about [Array_map] and [centroid] *)

Lemma Array_map_app {A B : Type} (f : A -> completion B) (before after : list A) :
  Array_map f (before ++ after) =
  (ys <- Array_map f before ;; zs <- Array_map f after ;; Return (ys ++ zs)).
Proof.
  induction before as [| x before IH]; simpl.
  - destruct (Array_map f after); reflexivity.
  - destruct (f x) as [y | e]; simpl; [| reflexivity].
    rewrite IH. destruct (Array_map f before); simpl; [| reflexivity].
    destruct (Array_map f after); reflexivity.
Qed.

(** [Array_map] throws what the first failing call throws. *)
Lemma Array_map_Throw {A B : Type} (f : A -> completion B) (array : list A) (e : exn) :
  Array_map f array = Throw e -> exists x, In x array /\ f x = Throw e.
Proof.
  induction array as [| x array IH]; simpl; [discriminate |].
  destruct (f x) as [y | e'] eqn:Ex; simpl.
  - destruct (Array_map f array) as [ys | e'']; simpl; [discriminate |].
    intros H. injection H as ->.
    destruct (IH eq_refl) as [x' [Hin Hx']]. exists x'. tauto.
  - intros H. injection H as ->. exists x. tauto.
Qed.

(** The three accumulators of the loop of [centroid]. *)
Lemma centroid_loop (loop : Ring) (lngSum latSum count : float) :
  fold_left
    (fun '(lngSum, latSum, count) (vertex : Position) =>
       ((lngSum + summand vertex 0)%float,
        (latSum + summand vertex 1)%float,
        (count + 1)%float))
    loop (lngSum, latSum, count)
  = (fold_left PrimFloat.add (map (fun vertex => summand vertex 0) loop) lngSum,
     fold_left PrimFloat.add (map (fun vertex => summand vertex 1) loop) latSum,
     Nat.iter (List.length loop) (fun c => (c + 1)%float) count).
Proof.
  revert lngSum latSum count.
  induction loop as [| vertex loop IH]; intros lngSum latSum count; simpl; [reflexivity |].
  rewrite IH. f_equal. clear IH.
  induction (List.length loop) as [| n IHn]; simpl; [reflexivity |].
  now rewrite IHn.
Qed.

Lemma iter_float_of_nat (n : nat) :
  Nat.iter n (fun c => (c + 1)%float) 0%float = float_of_nat n.
Proof.
  induction n as [| n IH]; simpl; [reflexivity |]. now rewrite IH.
Qed.

(** [centroid] reads the outer ring only, and returns its vertex mean. *)
Lemma centroid_vertex_mean (outer : Ring) (holes : list Ring) :
  centroid (outer :: holes) = Return (vertex_mean outer).
Proof.
  unfold centroid, vertex_mean, float_sum. simpl nth_error. cbv iota.
  rewrite centroid_loop, iter_float_of_nat. reflexivity.
Qed.

Lemma centroid_no_ring : centroid [] = Throw TypeError.
Proof. reflexivity. Qed.

Lemma strict_eq_spec (value : option string) (s : string) :
  strict_eq value s = true <-> value = Some s.
Proof.
  destruct value as [v |]; simpl; [| split; discriminate].
  rewrite String.eqb_eq. split; congruence.
Qed.

Section Fill.

Context {Properties : Type} {h3 : H3}.

Implicit Types (feature : GeoJSON Properties) (resolution : Z) (options : option Options).

(** The body of [featureToH3Set], with the call of [featureCollectionToH3Set]. *)
Lemma featureToH3Set_unfold feature resolution options :
  featureToH3Set feature resolution options =
  let o := match options with Some o => o | None => empty_options end in
  let geometryType := option_map geometry_type (geometry feature) in
  if type feature =? FEATURE_COLLECTION then
    featureCollectionToH3Set feature resolution
  else if negb (type feature =? FEATURE) then
    Throw (Error ("Unhandled type: " ++ type feature))
  else if negb (strict_eq geometryType POLYGON) && negb (strict_eq geometryType MULTI_POLYGON) then
    Throw (Error ("Unhandled geometry type: " ++ to_string geometryType))
  else
    polygons <- polygons_of (geometry feature) ;;
    arrays <- Array_map (polygonToH3Set resolution o) polygons ;;
    Return (flatten arrays).
Proof. destruct feature; reflexivity. Qed.

Lemma featureCollectionToH3Set_unfold feature resolution :
  featureCollectionToH3Set feature resolution =
  match features feature with
  | None => Throw (Error "No features found")
  | Some features =>
      arrays <- Array_map (fun f => featureToH3Set f resolution None) features ;;
      Return (flatten arrays)
  end.
Proof. reflexivity. Qed.

(** A polygon is filled, or its centroid is indexed, or [centroid] fails on a
    polygon without rings: nothing else is thrown. *)
Lemma polygonToH3Set_Throw resolution (o : Options) (polygon : Polygon) (e : exn) :
  polygonToH3Set resolution o polygon = Throw e -> e = TypeError.
Proof.
  unfold polygonToH3Set.
  destruct (negb (List.length (polyfill polygon resolution true) =? 0)%nat
            || negb (truthy (ensureOutput o))); [discriminate |].
  destruct polygon as [| outer holes].
  - rewrite centroid_no_ring. simpl. congruence.
  - rewrite centroid_vertex_mean. simpl. destruct (vertex_mean outer). discriminate.
Qed.

(** A polygon without rings that the library fills with no cell has no
    centroid: under [ensureOutput] the fallback throws. *)
Lemma polygonToH3Set_no_ring resolution (o : Options) :
  polyfill [] resolution true = [] ->
  truthy (ensureOutput o) = true ->
  polygonToH3Set resolution o [] = Throw TypeError.
Proof.
  intros Hfill Hensure. unfold polygonToH3Set. rewrite Hfill, Hensure. reflexivity.
Qed.

(** Past the two checks, only a geometry without polygons or [centroid] can
    fail. *)
Lemma fill_polygons_Throw (g : option Geometry) resolution (o : Options) (e : exn) :
  (polygons <- polygons_of g ;;
   arrays <- Array_map (polygonToH3Set resolution o) polygons ;;
   Return (flatten arrays)) = Throw e ->
  e = TypeError.
Proof.
  destruct (polygons_of g) as [polygons | e'] eqn:Ep; simpl.
  - destruct (Array_map _ polygons) as [arrays | e'] eqn:Em; simpl; [discriminate |].
    intros H. injection H as ->.
    destruct (Array_map_Throw _ _ _ Em) as [polygon [_ Hp]].
    eapply polygonToH3Set_Throw. eassumption.
  - intros H. injection H as ->.
    destruct g as [[| |] |]; simpl in Ep; congruence.
Qed.

(** What an object that is not a FeatureCollection can throw. *)
Lemma featureToH3Set_Throw feature resolution options (e : exn) :
  type feature <> FEATURE_COLLECTION ->
  featureToH3Set feature resolution options = Throw e ->
  e = TypeError
  \/ (type feature <> FEATURE /\ e = Error ("Unhandled type: " ++ type feature))
  \/ (type feature = FEATURE
      /\ e = Error ("Unhandled geometry type: "
                    ++ to_string (option_map geometry_type (geometry feature)))).
Proof.
  intros Hfc. rewrite featureToH3Set_unfold. cbv zeta.
  destruct (String.eqb_spec (type feature) FEATURE_COLLECTION) as [| _]; [contradiction |].
  destruct (String.eqb_spec (type feature) FEATURE) as [Hf | Hf]; simpl.
  - destruct (negb (strict_eq _ POLYGON) && negb (strict_eq _ MULTI_POLYGON)).
    + intros H. injection H as <-. right. right. split; [assumption | reflexivity].
    + intros H. left. eapply fill_polygons_Throw. eassumption.
  - intros H. injection H as <-. right. left. split; [assumption | reflexivity].
Qed.

(** The two type checks, on an object whose [type] is "Feature". *)
Ltac feature_checks Hfeature :=
  rewrite featureToH3Set_unfold; cbv zeta; rewrite Hfeature;
  change (FEATURE =? FEATURE_COLLECTION) with false; rewrite String.eqb_refl;
  cbv iota; simpl negb; cbv iota.

(** The members of a FeatureCollection are filled with the default options. *)
Lemma featureToH3Set_collection feature resolution options :
  type feature = FEATURE_COLLECTION ->
  featureToH3Set feature resolution options =
  match features feature with
  | None => Throw (Error "No features found")
  | Some features =>
      arrays <- Array_map (fun f => featureToH3Set f resolution None) features ;;
      Return (union_dedup arrays)
  end.
Proof.
  intros Ht. rewrite featureToH3Set_unfold. cbv zeta.
  rewrite Ht, String.eqb_refl, featureCollectionToH3Set_unfold.
  destruct (features feature) as [fs |]; [| reflexivity].
  destruct (Array_map _ fs); simpl; [| reflexivity].
  now rewrite flatten_union_dedup.
Qed.

(** The polygons of a Feature are filled one by one and the results united. *)
Lemma featureToH3Set_feature feature resolution options (polygons : list Polygon) :
  type feature = FEATURE ->
  polygons_of (geometry feature) = Return polygons ->
  featureToH3Set feature resolution options =
  (arrays <- Array_map
               (polygonToH3Set resolution
                  match options with Some o => o | None => empty_options end)
               polygons ;;
   Return (union_dedup arrays)).
Proof.
  intros Ht Hp. feature_checks Ht. rewrite Hp.
  assert (Hg : negb (strict_eq (option_map geometry_type (geometry feature)) POLYGON)
               && negb (strict_eq (option_map geometry_type (geometry feature)) MULTI_POLYGON)
               = false).
  { destruct (geometry feature) as [[| |] |]; simpl in Hp; try discriminate; reflexivity. }
  rewrite Hg. simpl.
  destruct (Array_map _ polygons); simpl; [| reflexivity].
  now rewrite flatten_union_dedup.
Qed.

(** C2, amended. A FeatureCollection whose members are not collections
    themselves raises the missing-features error exactly when it has no
    [features] member; with an empty [features] array it returns the empty
    set. *)
Theorem C2_missing_features feature resolution options :
  type feature = FEATURE_COLLECTION ->
  (forall members, features feature = Some members ->
     Forall (fun f => type f <> FEATURE_COLLECTION) members) ->
  ((exists e, featureToH3Set feature resolution options = Throw e /\ missing_features_error e)
   <-> features feature = None)
  /\ (features feature = Some [] -> featureToH3Set feature resolution options = Return []).
Proof.
  intros Ht Hmembers. rewrite (featureToH3Set_collection _ resolution options Ht).
  unfold missing_features_error.
  destruct (features feature) as [members |] eqn:Ef.
  - split.
    + split; [| discriminate].
      intros [e [Hthrow ->]]. exfalso.
      destruct (Array_map _ members) as [arrays | e] eqn:Em; simpl in Hthrow; [discriminate |].
      injection Hthrow as ->.
      destruct (Array_map_Throw _ _ _ Em) as [f [Hin Hf]].
      specialize (Hmembers members eq_refl). rewrite Forall_forall in Hmembers.
      destruct (featureToH3Set_Throw f resolution None _ (Hmembers f Hin) Hf)
        as [H | [[_ H] | [_ H]]]; discriminate.
    + intros H. injection H as ->. reflexivity.
  - split.
    + split; [reflexivity |]. intros _. eexists. split; reflexivity.
    + discriminate.
Qed.

(** C6. On an object that is not a FeatureCollection, the unsupported-type
    error is raised exactly when [type] is not "Feature"; on a Feature, the
    unsupported-geometry-type error is raised exactly when the type of the
    geometry is neither "Polygon" nor "MultiPolygon" (a missing geometry
    included).  A completion that throws carries no cells. *)
Theorem C6_unsupported_types feature resolution options :
  type feature <> FEATURE_COLLECTION ->
  let geometryType := option_map geometry_type (geometry feature) in
  ((exists e, featureToH3Set feature resolution options = Throw e
              /\ unsupported_feature_type_error e)
   <-> type feature <> FEATURE)
  /\ (type feature = FEATURE ->
      ((exists e, featureToH3Set feature resolution options = Throw e
                  /\ unsupported_geometry_type_error e)
       <-> geometryType <> Some POLYGON /\ geometryType <> Some MULTI_POLYGON))
  /\ (forall e, featureToH3Set feature resolution options = Throw e ->
      forall cells, featureToH3Set feature resolution options <> Return cells).
Proof.
  intros Hfc geometryType.
  unfold unsupported_feature_type_error, unsupported_geometry_type_error.
  split; [| split].
  - split.
    + intros [e [Hthrow [t ->]]] Hf.
      destruct (featureToH3Set_Throw _ _ _ _ Hfc Hthrow) as [H | [[Hnf _] | [_ H]]];
        [discriminate | contradiction | discriminate].
    + intros Hf. eexists. split; [| exists (type feature); reflexivity].
      rewrite featureToH3Set_unfold. cbv zeta.
      destruct (String.eqb_spec (type feature) FEATURE_COLLECTION); [contradiction |].
      destruct (String.eqb_spec (type feature) FEATURE); [contradiction | reflexivity].
  - intros Hf.
    assert (Hcheck :
      negb (strict_eq geometryType POLYGON) && negb (strict_eq geometryType MULTI_POLYGON) = true
      <-> geometryType <> Some POLYGON /\ geometryType <> Some MULTI_POLYGON).
    { rewrite andb_true_iff, !negb_true_iff, <- !not_true_iff_false, !strict_eq_spec.
      reflexivity. }
    rewrite <- Hcheck. feature_checks Hf. fold geometryType.
    destruct (negb (strict_eq geometryType POLYGON)
              && negb (strict_eq geometryType MULTI_POLYGON)).
    + split; [reflexivity |]. intros _. eexists.
      split; [reflexivity | exists (to_string geometryType); reflexivity].
    + split; [| discriminate].
      intros [e [Hthrow [t ->]]]. apply fill_polygons_Throw in Hthrow. discriminate.
  - intros e He cells. rewrite He. discriminate.
Qed.

(** C7. A Polygon Feature is filled exactly as the same Feature with a
    MultiPolygon geometry whose only member is the polygon. *)
Theorem C7_polygon_as_singleton_multipolygon
    (type : string) (id : option CellId) (properties : option Properties)
    (features : option (list (GeoJSON Properties)))
    (coordinates : Polygon) resolution options :
  featureToH3Set
    (mkGeoJSON type id properties (Some (PolygonGeometry coordinates)) features)
    resolution options
  = featureToH3Set
      (mkGeoJSON type id properties (Some (MultiPolygonGeometry [coordinates])) features)
      resolution options.
Proof.
  rewrite 2 featureToH3Set_unfold. cbv zeta.
  rewrite 2 featureCollectionToH3Set_unfold. reflexivity.
Qed.

(** C5. The cells [featureToH3Set] returns hold no duplicate, and they are
    the cells of the flattened sequences (one per polygon of a Feature, one
    per member of a FeatureCollection), each at the place of its first
    occurrence in their concatenation. *)
Theorem C5_no_duplicates_first_occurrence_order feature resolution options (cells : list CellId) :
  featureToH3Set feature resolution options = Return cells ->
  exists arrays : list (list CellId),
    ((type feature = FEATURE_COLLECTION
      /\ exists members,
           features feature = Some members
           /\ Array_map (fun f => featureToH3Set f resolution None) members = Return arrays)
     \/ (type feature = FEATURE
         /\ exists polygons,
              polygons_of (geometry feature) = Return polygons
              /\ Array_map
                   (polygonToH3Set resolution
                      match options with Some o => o | None => empty_options end)
                   polygons = Return arrays))
    /\ cells = union_dedup arrays
    /\ NoDup cells
    /\ (forall c, In c cells <-> In c (List.concat arrays))
    /\ (forall x y, In x cells -> In y cells ->
          (index_of x cells < index_of y cells
           <-> index_of x (List.concat arrays) < index_of y (List.concat arrays))).
Proof.
  intros Hret.
  assert (Hsource : exists arrays : list (list CellId),
    ((type feature = FEATURE_COLLECTION
      /\ exists members,
           features feature = Some members
           /\ Array_map (fun f => featureToH3Set f resolution None) members = Return arrays)
     \/ (type feature = FEATURE
         /\ exists polygons,
              polygons_of (geometry feature) = Return polygons
              /\ Array_map
                   (polygonToH3Set resolution
                      match options with Some o => o | None => empty_options end)
                   polygons = Return arrays))
    /\ cells = union_dedup arrays).
  { revert Hret. rewrite featureToH3Set_unfold. cbv zeta.
    destruct (String.eqb_spec (type feature) FEATURE_COLLECTION) as [Hfc | Hfc].
    - rewrite featureCollectionToH3Set_unfold.
      destruct (features feature) as [members |]; [| discriminate].
      destruct (Array_map _ members) as [arrays | e] eqn:Em; simpl; [| discriminate].
      intros H. injection H as <-. exists arrays. split.
      + left. split; [assumption |]. exists members. split; [reflexivity | assumption].
      + apply flatten_union_dedup.
    - destruct (String.eqb_spec (type feature) FEATURE) as [Hf | Hf]; simpl; [| discriminate].
      destruct (negb (strict_eq _ POLYGON) && negb (strict_eq _ MULTI_POLYGON));
        [discriminate |].
      destruct (polygons_of (geometry feature)) as [polygons | e]; simpl; [| discriminate].
      destruct (Array_map _ polygons) as [arrays | e] eqn:Em; simpl; [| discriminate].
      intros H. injection H as <-. exists arrays. split.
      + right. split; [assumption |]. exists polygons. split; [reflexivity | assumption].
      + apply flatten_union_dedup. }
  destruct Hsource as [arrays [Hsource ->]].
  exists arrays. split; [assumption |]. split; [reflexivity |].
  unfold union_dedup. split; [| split].
  - apply first_occurrences_from_NoDup.
  - intros c. rewrite first_occurrences_from_In. simpl. tauto.
  - intros x y Hx Hy.
    apply first_occurrences_from_In in Hx. apply first_occurrences_from_In in Hy.
    apply first_occurrences_from_order; tauto.
Qed.

(** C3, amended. In a Feature, a polygon with an outer ring that the
    library fills with no cell contributes, under a truthy [ensureOutput],
    the one cell [geoToH3] gives for the vertex mean of its outer ring
    (closing vertex counted, holes not read), and contributes nothing
    otherwise: alone in a Polygon it makes the whole result, among the
    polygons of a MultiPolygon it stands at its place between what the
    polygons before it and after it contribute. *)
Theorem C3_degenerate_polygon_with_outer_ring
    (id : option CellId) (properties : option Properties)
    (features : option (list (GeoJSON Properties)))
    resolution options (before after : list Polygon) (outer : Ring) (holes : list Ring) :
  polyfill (outer :: holes) resolution true = [] ->
  let o := match options with Some o => o | None => empty_options end in
  let contribution :=
    if truthy (ensureOutput o)
    then [geoToH3 (snd (vertex_mean outer)) (fst (vertex_mean outer)) resolution]
    else [] in
  featureToH3Set
    (mkGeoJSON FEATURE id properties (Some (PolygonGeometry (outer :: holes))) features)
    resolution options
  = Return contribution
  /\ featureToH3Set
       (mkGeoJSON FEATURE id properties
          (Some (MultiPolygonGeometry (before ++ (outer :: holes) :: after))) features)
       resolution options
     = (arrays_before <- Array_map (polygonToH3Set resolution o) before ;;
        arrays_after <- Array_map (polygonToH3Set resolution o) after ;;
        Return (union_dedup (arrays_before ++ contribution :: arrays_after))).
Proof.
  intros Hfill o contribution.
  assert (Hone : polygonToH3Set resolution o (outer :: holes) = Return contribution).
  { unfold polygonToH3Set, contribution. rewrite Hfill. simpl.
    destruct (truthy (ensureOutput o)); simpl; [| reflexivity].
    rewrite centroid_vertex_mean. simpl. destruct (vertex_mean outer). reflexivity. }
  split.
  - rewrite (featureToH3Set_feature
               (mkGeoJSON FEATURE id properties (Some (PolygonGeometry (outer :: holes)))
                  features)
               resolution options [outer :: holes] eq_refl eq_refl).
    fold o. simpl. rewrite Hone. simpl. f_equal.
    unfold contribution. destruct (truthy (ensureOutput o)); reflexivity.
  - rewrite (featureToH3Set_feature
               (mkGeoJSON FEATURE id properties
                  (Some (MultiPolygonGeometry (before ++ (outer :: holes) :: after))) features)
               resolution options (before ++ (outer :: holes) :: after) eq_refl eq_refl).
    fold o. rewrite Array_map_app.
    destruct (Array_map (polygonToH3Set resolution o) before) as [arrays_before | e];
      simpl; [| reflexivity].
    rewrite Hone. simpl.
    destruct (Array_map (polygonToH3Set resolution o) after); reflexivity.
Qed.

End Fill.

Section Emit.

Context {Properties : Type} (empty_object : Properties) {h3 : H3}.

Implicit Types (hexagons : list CellId) (properties : option Properties).

(** The loop of [h3SetToFeatureCollection] builds the features in order. *)
Lemma push_features (f : CellId -> GeoJSON Properties) hexagons (done : list (GeoJSON Properties)) :
  fold_left (fun features h3Index => features ++ [f h3Index]) hexagons done
  = done ++ map f hexagons.
Proof.
  revert done.
  induction hexagons as [| h hexagons IH]; intros done; simpl.
  - now rewrite app_nil_r.
  - rewrite IH, <- app_assoc. reflexivity.
Qed.

(** C4. [h3SetToFeature] looks at the outlines the library returns: none
    gives a Polygon with no coordinates, one gives a Polygon with that
    outline as its coordinates, more give a MultiPolygon of all of them. *)
Theorem C4_unwrap_single_outline hexagons properties :
  geometry (h3SetToFeature empty_object hexagons properties) =
  Some match h3SetToMultiPolygon hexagons true with
       | [] => PolygonGeometry []
       | [outline] => PolygonGeometry outline
       | outlines => MultiPolygonGeometry outlines
       end
  /\ option_map geometry_type (geometry (h3SetToFeature empty_object hexagons properties)) =
     Some (if (1 <? List.length (h3SetToMultiPolygon hexagons true))%nat
           then MULTI_POLYGON else POLYGON).
Proof.
  unfold h3SetToFeature. simpl.
  destruct (h3SetToMultiPolygon hexagons true) as [| outline [| second outlines]];
    split; reflexivity.
Qed.

(** C8. [h3SetToMultiPolygonFeature] always gives a MultiPolygon, with for
    each cell, in order, the polygon whose only ring is the boundary of that
    cell; so for one cell as well. *)
Theorem C8_one_outline_per_cell hexagons properties :
  let feature := h3SetToMultiPolygonFeature empty_object hexagons properties in
  let boundary := fun h3Index => h3ToGeoBoundary h3Index ArgGeoJsonObject in
  geometry feature = Some (MultiPolygonGeometry (map (fun h3Index => [boundary h3Index]) hexagons))
  /\ option_map geometry_type (geometry feature) = Some MULTI_POLYGON
  /\ (forall coordinates, geometry feature = Some (MultiPolygonGeometry coordinates) ->
        List.length coordinates = List.length hexagons
        /\ Forall (fun polygon : Polygon => List.length polygon = 1) coordinates
        /\ forall i h3Index, nth_error hexagons i = Some h3Index ->
             nth_error coordinates i = Some [boundary h3Index])
  /\ (forall h3Index,
        geometry (h3SetToMultiPolygonFeature empty_object [h3Index] properties)
        = Some (MultiPolygonGeometry [[boundary h3Index]])).
Proof.
  intros feature boundary. unfold feature, h3SetToMultiPolygonFeature. simpl.
  split; [reflexivity |]. split; [reflexivity |]. split; [| reflexivity].
  intros coordinates H. injection H as <-.
  split; [apply length_map |]. split.
  - apply Forall_map. apply Forall_forall. reflexivity.
  - intros i h3Index Hi. rewrite nth_error_map, Hi. reflexivity.
Qed.

(** C9. [h3SetToFeatureCollection] gives a FeatureCollection with one
    feature per cell, in order, each the [h3ToFeature] of the cell with the
    properties [getProperties] returns for it, or [{}] without
    [getProperties]; the [id]s of the features are the cells again. *)
Theorem C9_one_feature_per_cell hexagons (getProperties : option (CellId -> Properties)) :
  let collection := h3SetToFeatureCollection empty_object hexagons getProperties in
  let properties_of := fun h3Index =>
    match getProperties with Some f => f h3Index | None => empty_object end in
  type collection = FEATURE_COLLECTION
  /\ features collection =
     Some (map (fun h3Index => h3ToFeature empty_object h3Index (Some (properties_of h3Index)))
             hexagons)
  /\ option_map (map (@id Properties)) (features collection) = Some (map Some hexagons)
  /\ option_map (map (@properties Properties)) (features collection)
     = Some (map (fun h3Index => Some (properties_of h3Index)) hexagons).
Proof.
  intros collection properties_of.
  assert (Hfeatures : features collection =
    Some (map (fun h3Index => h3ToFeature empty_object h3Index (Some (properties_of h3Index)))
            hexagons)).
  { unfold collection, h3SetToFeatureCollection. simpl.
    rewrite (push_features
               (fun h3Index => h3ToFeature empty_object h3Index (Some (properties_of h3Index)))).
    reflexivity. }
  split; [reflexivity |]. split; [assumption |].
  rewrite Hfeatures. simpl. rewrite !map_map. simpl. split; reflexivity.
Qed.

(** C10. The feature of [h3SetToFeature] has the members [type],
    [properties] and [geometry] and no [id], where [h3ToFeature] sets [id] to
    the cell. *)
Theorem C10_set_feature_has_no_id hexagons properties (h3Index : CellId) :
  id (h3SetToFeature empty_object hexagons properties) = None
  /\ members (h3SetToFeature empty_object hexagons properties)
     = ["type"; "properties"; "geometry"]
  /\ id (h3ToFeature empty_object h3Index properties) = Some h3Index
  /\ members (h3ToFeature empty_object h3Index properties)
     = ["type"; "id"; "properties"; "geometry"].
Proof. repeat split. Qed.

End Emit.

(** ** The statements at the examples *)

Example flatten_shared_cell :
  flatten [["8928308280fffff"; "8928308280bffff"]; ["8928308280bffff"; "89283082803ffff"]]
  = ["8928308280fffff"; "8928308280bffff"; "89283082803ffff"].
Proof. reflexivity. Qed.

Example flatten_no_arrays : flatten [] = [].
Proof. reflexivity. Qed.

Example centroid_triangle : centroid triangle = Return (1, 0.5)%float.
Proof. vm_compute. reflexivity. Qed.

Example float_of_nat_5 : float_of_nat 5 = 5%float.
Proof. vm_compute. reflexivity. Qed.

Example empty_collection :
  featureToH3Set (h3 := tiny_h3)
    (mkGeoJSON FEATURE_COLLECTION None (None : option JsObject) None (Some [])) 7 None
  = Return []
  /\ featureToH3Set (h3 := tiny_h3)
       (mkGeoJSON FEATURE_COLLECTION None (None : option JsObject) None None) 7 None
     = Throw (Error "No features found").
Proof. split; reflexivity. Qed.

Example collection_with_properties :
  h3SetToFeatureCollection (h3 := tiny_h3) ([] : JsObject)
    ["8928308280fffff"] (Some (fun h3Index => [("name", h3Index)]))
  = mkGeoJSON FEATURE_COLLECTION None None None
      (Some [mkGeoJSON FEATURE (Some "8928308280fffff")
               (Some [("name", "8928308280fffff")])
               (Some (PolygonGeometry [unit_hexagon])) None]).
Proof. reflexivity. Qed.

(** C1. Under [{ensureOutput: true}] the triangle alone is given the cell of
    its centroid at resolution 7, and the collection that holds it is given
    no cell: [featureCollectionToH3Set] passes no options on. *)
Theorem C1_collection_drops_options :
  featureToH3Set (h3 := tiny_h3) triangle_feature 7 (Some ensure_output)
  = Return ["872830828ffffff"]
  /\ featureToH3Set (h3 := tiny_h3) triangle_collection 7 (Some ensure_output)
     = Return []
  /\ (arrays <- Array_map
                  (fun f => featureToH3Set (h3 := tiny_h3) f 7 (Some ensure_output))
                  [triangle_feature] ;;
      Return (union_dedup arrays))
     = Return ["872830828ffffff"].
Proof. repeat split; vm_compute; reflexivity. Qed.

(** The collection of the triangle has a [features] member and throws
    nothing. *)
Lemma C2_missing_features_witness :
  type triangle_collection = FEATURE_COLLECTION
  /\ (((exists e, featureToH3Set (h3 := tiny_h3) triangle_collection 9 None = Throw e
                  /\ missing_features_error e)
       <-> features triangle_collection = None)
      /\ (features triangle_collection = Some [] ->
          featureToH3Set (h3 := tiny_h3) triangle_collection 9 None = Return [])).
Proof.
  split; [reflexivity |].
  apply (C2_missing_features (h3 := tiny_h3) triangle_collection 9 None).
  - reflexivity.
  - intros members H. injection H as <-.
    repeat constructor. discriminate.
Defined.

(** A Feature whose geometry is a Point. *)
Lemma C6_unsupported_types_witness :
  (exists e, featureToH3Set (h3 := tiny_h3) point_feature 9 None = Throw e
             /\ unsupported_geometry_type_error e)
  <-> Some "Point" <> Some POLYGON /\ Some "Point" <> Some MULTI_POLYGON.
Proof.
  apply (C6_unsupported_types (h3 := tiny_h3) point_feature 9 None).
  - discriminate.
  - reflexivity.
Defined.

(** The triangle and the square share a cell at resolution 9. *)
Lemma C5_no_duplicates_witness :
  featureToH3Set (h3 := tiny_h3) two_polygons_feature 9 None
  = Return ["8928308280fffff"; "8928308280bffff"; "89283082803ffff"]
  /\ NoDup ["8928308280fffff"; "8928308280bffff"; "89283082803ffff"].
Proof.
  split; [vm_compute; reflexivity |].
  destruct (C5_no_duplicates_first_occurrence_order (h3 := tiny_h3)
              two_polygons_feature 9 None
              ["8928308280fffff"; "8928308280bffff"; "89283082803ffff"] eq_refl)
    as [arrays [_ [_ [Hnodup _]]]].
  exact Hnodup.
Defined.

(** The triangle holds no cell centre at resolution 7; its vertex mean is
    [(1, 0.5)]. *)
Lemma C3_degenerate_polygon_witness :
  polyfill (H3 := tiny_h3) triangle 7 true = []
  /\ featureToH3Set (h3 := tiny_h3) triangle_feature 7 (Some ensure_output)
     = Return [geoToH3 (H3 := tiny_h3) 0.5 1 7].
Proof.
  split; [reflexivity |].
  apply (C3_degenerate_polygon_with_outer_ring (h3 := tiny_h3)
           None (Some ([] : JsObject)) None 7 (Some ensure_output) [] []
           [[0; 0]; [4; 0]; [0; 2]; [0; 0]]%float []).
  reflexivity.
Defined.

(** C3 does not reach a polygon without rings, the coordinates
    [h3SetToFeature] gives an empty set: the library fills it with no cell,
    and under [{ensureOutput: true}] no cell is put in its place, a
    [TypeError] is thrown. *)
Lemma C3_polygon_without_rings :
  polyfill (H3 := tiny_h3) [] 7 true = []
  /\ truthy (ensureOutput ensure_output) = true
  /\ featureToH3Set (h3 := tiny_h3)
       (mkGeoJSON FEATURE None (Some ([] : JsObject)) (Some (PolygonGeometry [])) None)
       7 (Some ensure_output)
     = Throw TypeError.
Proof. repeat split. Qed.

(** C2 does not reach a collection whose member is a collection without
    [features]: the outer collection has its [features], and the error of the
    member comes out of it. *)
Lemma C2_nested_collection_without_features :
  features
    (mkGeoJSON FEATURE_COLLECTION None (None : option JsObject) None
       (Some [mkGeoJSON FEATURE_COLLECTION None None None None]))
  <> None
  /\ featureToH3Set (h3 := tiny_h3)
       (mkGeoJSON FEATURE_COLLECTION None (None : option JsObject) None
          (Some [mkGeoJSON FEATURE_COLLECTION None None None None]))
       7 None
     = Throw (Error "No features found")
  /\ missing_features_error (Error "No features found").
Proof. repeat split. discriminate. Qed.

(** ** More about [flatten] *)

Lemma first_occurrences_from_app (cells cells' seen : list CellId) :
  first_occurrences_from seen (cells ++ cells')
  = first_occurrences_from seen cells ++ first_occurrences_from (cells ++ seen) cells'.
Proof.
  revert seen.
  induction cells as [| c cells IH]; intros seen; simpl; [reflexivity |].
  destruct (JsSet.has seen c) eqn:E.
  - apply has_In in E. rewrite IH. f_equal.
    apply first_occurrences_from_ext. intros x. simpl. rewrite !in_app_iff.
    split; [tauto |]. intros [-> | H]; tauto.
  - simpl. rewrite IH. do 2 f_equal.
    apply first_occurrences_from_ext. intros x. simpl. rewrite !in_app_iff. simpl. tauto.
Qed.

(** Cells seen beforehand are the ones filtered out afterwards. *)
Lemma first_occurrences_from_filter (cells seen seen' : list CellId) :
  first_occurrences_from (seen ++ seen') cells
  = filter (fun c => negb (JsSet.has seen c)) (first_occurrences_from seen' cells).
Proof.
  revert seen'.
  induction cells as [| c cells IH]; intros seen'; simpl; [reflexivity |].
  destruct (JsSet.has seen' c) eqn:E'.
  - assert (E : JsSet.has (seen ++ seen') c = true).
    { apply has_In, in_or_app. right. now apply has_In. }
    rewrite E. apply IH.
  - destruct (JsSet.has seen c) eqn:E; simpl; rewrite E; simpl.
    + assert (Eb : JsSet.has (seen ++ seen') c = true).
      { apply has_In, in_or_app. left. now apply has_In. }
      rewrite Eb, <- IH. apply first_occurrences_from_ext.
      intros x. rewrite !in_app_iff. simpl. apply has_In in E.
      split; [tauto |]. intros [H | [-> | H]]; tauto.
    + assert (Eb : JsSet.has (seen ++ seen') c = false).
      { apply has_not_In. rewrite in_app_iff.
        apply has_not_In in E. apply has_not_In in E'. tauto. }
      rewrite Eb. f_equal. rewrite <- IH. apply first_occurrences_from_ext.
      intros x. simpl. rewrite !in_app_iff. simpl. tauto.
Qed.

Lemma has_ext (s s' : list CellId) (c : CellId) :
  (forall x, In x s <-> In x s') -> JsSet.has s c = JsSet.has s' c.
Proof.
  intros Hext. destruct (JsSet.has s' c) eqn:E.
  - apply has_In, Hext. now apply has_In.
  - apply has_not_In. rewrite Hext. now apply has_not_In.
Qed.

(** A sequence without duplicates, none of them seen, is kept as it is. *)
Lemma first_occurrences_from_NoDup_id (cells seen : list CellId) :
  NoDup cells -> (forall c, In c cells -> ~ In c seen) ->
  first_occurrences_from seen cells = cells.
Proof.
  revert seen.
  induction cells as [| c cells IH]; intros seen Hnd Hseen; simpl; [reflexivity |].
  inversion Hnd as [| ? ? Hc Hnd']; subst.
  assert (E : JsSet.has seen c = false) by (apply has_not_In, Hseen; now left).
  rewrite E. f_equal. apply IH; [assumption |].
  intros x Hx [<- | H]; [contradiction |]. apply (Hseen x); [now right | assumption].
Qed.

Lemma union_dedup_app (arrays arrays' : list (list CellId)) :
  union_dedup (arrays ++ arrays')
  = union_dedup arrays
    ++ filter (fun c => negb (JsSet.has (union_dedup arrays) c)) (union_dedup arrays').
Proof.
  unfold union_dedup. rewrite concat_app, first_occurrences_from_app. f_equal.
  rewrite first_occurrences_from_filter. apply filter_ext.
  intros c. f_equal. apply has_ext.
  intros x. rewrite first_occurrences_from_In. simpl. tauto.
Qed.

Lemma union_dedup_singleton (cells : list CellId) :
  NoDup cells -> union_dedup [cells] = cells.
Proof.
  intros Hnd. unfold union_dedup. simpl. rewrite app_nil_r.
  apply first_occurrences_from_NoDup_id; [assumption | intros c _ []].
Qed.

Lemma union_dedup_NoDup (arrays : list (list CellId)) : NoDup (union_dedup arrays).
Proof. apply first_occurrences_from_NoDup. Qed.

Lemma union_dedup_In (arrays : list (list CellId)) (c : CellId) :
  In c (union_dedup arrays) <-> exists array, In array arrays /\ In c array.
Proof.
  unfold union_dedup. rewrite first_occurrences_from_In, in_concat. simpl. tauto.
Qed.

(** Uniting the unions of groups of arrays unites all the arrays. *)
Lemma union_dedup_nested (groups : list (list (list CellId))) :
  union_dedup (map union_dedup groups) = union_dedup (List.concat groups).
Proof.
  induction groups as [| group groups IH]; [reflexivity |].
  change (map union_dedup (group :: groups))
    with ([union_dedup group] ++ map union_dedup groups).
  simpl List.concat. rewrite 2 union_dedup_app, IH.
  rewrite (union_dedup_singleton _ (union_dedup_NoDup group)). reflexivity.
Qed.

Lemma union_dedup_nil_iff (arrays : list (list CellId)) :
  union_dedup arrays = [] <-> Forall (fun array => array = []) arrays.
Proof.
  rewrite <- concat_nil_Forall. unfold union_dedup. split.
  - intros H. destruct (List.concat arrays) as [| c cells]; [reflexivity |].
    assert (Hin : In c (first_occurrences_from [] (c :: cells))).
    { apply first_occurrences_from_In. simpl. tauto. }
    rewrite H in Hin. destruct Hin.
  - intros ->. reflexivity.
Qed.

(** X1. [flatten] returns every member of every array, once. *)
Theorem flatten_members_once (arrays : list (list CellId)) :
  NoDup (flatten arrays)
  /\ forall c, In c (flatten arrays) <-> exists array, In array arrays /\ In c array.
Proof.
  rewrite flatten_union_dedup. split.
  - apply union_dedup_NoDup.
  - apply union_dedup_In.
Qed.

(** X2. Flattening more arrays appends, to the result for the first ones,
    those cells of the result for the others that it does not hold yet. *)
Theorem flatten_app (arrays arrays' : list (list CellId)) :
  flatten (arrays ++ arrays')
  = flatten arrays
    ++ filter (fun c => negb (JsSet.has (flatten arrays) c)) (flatten arrays').
Proof. rewrite !flatten_union_dedup. apply union_dedup_app. Qed.

(** X3. Flattening the flattened groups is flattening all their arrays. *)
Theorem flatten_nested (groups : list (list (list CellId))) :
  flatten (map flatten groups) = flatten (List.concat groups).
Proof.
  rewrite !flatten_union_dedup, <- union_dedup_nested. f_equal.
  apply map_ext. intros group. apply flatten_union_dedup.
Qed.

(** X4. [flatten] returns no cell exactly when every array is empty. *)
Theorem flatten_nil_iff (arrays : list (list CellId)) :
  flatten arrays = [] <-> Forall (fun array => array = []) arrays.
Proof. rewrite flatten_union_dedup. apply union_dedup_nil_iff. Qed.

(** X5. [flatten] of one array gives the array back exactly when the array
    holds no duplicate. *)
Theorem flatten_singleton_iff (cells : list CellId) :
  flatten [cells] = cells <-> NoDup cells.
Proof.
  rewrite flatten_union_dedup. split.
  - intros <-. apply union_dedup_NoDup.
  - apply union_dedup_singleton.
Qed.

(** ** More about [centroid] and [Array_map] *)

(** X6. [centroid] fails exactly on a polygon without rings; it reads the
    first ring only, and an outer ring without vertices gives [NaN] twice. *)
Theorem centroid_outer_ring_only :
  (forall polygon, (exists e, centroid polygon = Throw e) <-> polygon = [])
  /\ (forall polygon e, centroid polygon = Throw e -> e = TypeError)
  /\ (forall outer holes, centroid (outer :: holes) = centroid [outer])
  /\ (forall holes, centroid ([] :: holes) = Return (nan, nan)).
Proof.
  split; [| split; [| split]].
  - intros [| outer holes].
    + split; [reflexivity |]. intros _. exists TypeError. reflexivity.
    + rewrite centroid_vertex_mean. split; [intros [e H] |]; discriminate.
  - intros [| outer holes] e.
    + rewrite centroid_no_ring. congruence.
    + rewrite centroid_vertex_mean. discriminate.
  - intros outer holes. now rewrite 2 centroid_vertex_mean.
  - intros holes. reflexivity.
Qed.

Lemma Array_map_Forall2 {A B : Type} (f : A -> completion B) (array : list A) (ys : list B) :
  Forall2 (fun x y => f x = Return y) array ys -> Array_map f array = Return ys.
Proof.
  induction 1 as [| x y array ys Hx _ IH]; simpl; [reflexivity |].
  rewrite Hx. simpl. rewrite IH. reflexivity.
Qed.

Lemma Array_map_Return {A B : Type} (f : A -> completion B) (g : A -> B) (array : list A) :
  (forall x, In x array -> f x = Return (g x)) -> Array_map f array = Return (map g array).
Proof.
  intros H. apply Array_map_Forall2.
  induction array as [| x array IH]; simpl; constructor.
  - apply H. now left.
  - apply IH. intros y Hy. apply H. now right.
Qed.

(** The first call that throws ends the mapping. *)
Lemma Array_map_first_Throw {A B : Type} (f : A -> completion B)
    (before after : list A) (x : A) (e : exn) :
  (forall b, In b before -> exists y, f b = Return y) ->
  f x = Throw e ->
  Array_map f (before ++ x :: after) = Throw e.
Proof.
  intros Hbefore Hx.
  induction before as [| b before IH]; simpl.
  - rewrite Hx. reflexivity.
  - destruct (Hbefore b (or_introl eq_refl)) as [y Hy]. rewrite Hy. simpl.
    rewrite IH; [reflexivity |]. intros b' Hb'. apply Hbefore. now right.
Qed.

Lemma Array_map_Throw_iff {A B : Type} (f : A -> completion B) (array : list A) :
  (exists e, Array_map f array = Throw e) <-> exists x, In x array /\ exists e, f x = Throw e.
Proof.
  split.
  - intros [e H]. destruct (Array_map_Throw _ _ _ H) as [x [Hin Hx]].
    exists x. split; [assumption | now exists e].
  - induction array as [| a array IH]; intros [x [Hin [e Hx]]]; [destruct Hin |].
    simpl. destruct (f a) as [y | e'] eqn:Ea; simpl.
    + destruct Hin as [-> | Hin]; [congruence |].
      destruct IH as [e' He']; [exists x; split; [assumption | now exists e] |].
      rewrite He'. now exists e'.
    + now exists e'.
Qed.

Section FillMore.

Context {Properties : Type} {h3 : H3}.

Implicit Types (feature : GeoJSON Properties) (resolution : Z) (options : option Options).

(** What a polygon with an outer ring contributes. *)
Lemma polygonToH3Set_ring resolution (o : Options) (outer : Ring) (holes : list Ring) :
  polygonToH3Set resolution o (outer :: holes)
  = Return (if negb (List.length (polyfill (outer :: holes) resolution true) =? 0)%nat
               || negb (truthy (ensureOutput o))
            then polyfill (outer :: holes) resolution true
            else [geoToH3 (snd (vertex_mean outer)) (fst (vertex_mean outer)) resolution]).
Proof.
  unfold polygonToH3Set.
  destruct (negb (List.length (polyfill (outer :: holes) resolution true) =? 0)%nat
            || negb (truthy (ensureOutput o))); [reflexivity |].
  rewrite centroid_vertex_mean. simpl. destruct (vertex_mean outer). reflexivity.
Qed.

Lemma polygonToH3Set_no_ensure resolution (o : Options) (polygon : Polygon) :
  truthy (ensureOutput o) = false ->
  polygonToH3Set resolution o polygon = Return (polyfill polygon resolution true).
Proof.
  intros H. unfold polygonToH3Set. rewrite H, orb_true_r. reflexivity.
Qed.

Lemma polygonToH3Set_Throw_iff resolution (o : Options) (polygon : Polygon) :
  (exists e, polygonToH3Set resolution o polygon = Throw e)
  <-> polygon = [] /\ truthy (ensureOutput o) = true /\ polyfill [] resolution true = [].
Proof.
  destruct polygon as [| outer holes].
  - unfold polygonToH3Set.
    destruct (polyfill [] resolution true) as [| c cells] eqn:Efill;
      destruct (truthy (ensureOutput o)); simpl.
    + split; [tauto |]. intros _. now exists TypeError.
    + split; [intros [e H]; discriminate | intros [_ [H _]]; discriminate].
    + split; [intros [e H]; discriminate | intros [_ [_ H]]; discriminate].
    + split; [intros [e H]; discriminate | intros [_ [H _]]; discriminate].
  - rewrite polygonToH3Set_ring.
    split; [intros [e H]; discriminate | intros [H _]; discriminate].
Qed.

(** A Feature filled without [ensureOutput]. *)
Lemma featureToH3Set_no_ensure feature resolution options (polygons : list Polygon) :
  type feature = FEATURE ->
  polygons_of (geometry feature) = Return polygons ->
  truthy (ensureOutput match options with Some o => o | None => empty_options end) = false ->
  featureToH3Set feature resolution options
  = Return (union_dedup (map (fun polygon => polyfill polygon resolution true) polygons)).
Proof.
  intros Ht Hp Hensure.
  rewrite (featureToH3Set_feature feature resolution options polygons Ht Hp).
  rewrite (Array_map_Return _ (fun polygon => polyfill polygon resolution true)).
  - reflexivity.
  - intros polygon _. now apply polygonToH3Set_no_ensure.
Qed.

(** What is returned comes out of [flatten]. *)
Lemma featureToH3Set_Return_NoDup feature resolution options (cells : list CellId) :
  featureToH3Set feature resolution options = Return cells -> NoDup cells.
Proof.
  rewrite featureToH3Set_unfold. cbv zeta.
  destruct (type feature =? FEATURE_COLLECTION).
  - rewrite featureCollectionToH3Set_unfold.
    destruct (features feature) as [members |]; [| discriminate].
    destruct (Array_map _ members) as [arrays | e]; simpl; [| discriminate].
    intros H. injection H as <-. rewrite flatten_union_dedup. apply union_dedup_NoDup.
  - destruct (negb (type feature =? FEATURE)); [discriminate |].
    destruct (negb (strict_eq _ POLYGON) && negb (strict_eq _ MULTI_POLYGON));
      [discriminate |].
    destruct (polygons_of (geometry feature)) as [polygons | e]; simpl; [| discriminate].
    destruct (Array_map _ polygons) as [arrays | e]; simpl; [| discriminate].
    intros H. injection H as <-. rewrite flatten_union_dedup. apply union_dedup_NoDup.
Qed.

(** The members of a collection that are Features, filled one by one. *)
Lemma Array_map_features resolution
    (members : list (GeoJSON Properties)) (polygonss : list (list Polygon)) :
  Forall2 (fun f polygons => type f = FEATURE /\ polygons_of (geometry f) = Return polygons)
    members polygonss ->
  Array_map (fun f => featureToH3Set f resolution None) members
  = Return (map (fun polygons =>
                   union_dedup (map (fun polygon => polyfill polygon resolution true) polygons))
              polygonss).
Proof.
  intros H. apply Array_map_Forall2.
  induction H as [| f polygons members polygonss [Ht Hp] _ IH]; simpl; constructor.
  - now apply featureToH3Set_no_ensure.
  - exact IH.
Qed.

(** A collection of Features is filled as the MultiPolygon of all their
    polygons. *)
Lemma featureToH3Set_collection_of_features feature resolution options
    (members : list (GeoJSON Properties)) (polygonss : list (list Polygon)) :
  type feature = FEATURE_COLLECTION ->
  features feature = Some members ->
  Forall2 (fun f polygons => type f = FEATURE /\ polygons_of (geometry f) = Return polygons)
    members polygonss ->
  featureToH3Set feature resolution options
  = Return (union_dedup
              (map (fun polygon => polyfill polygon resolution true) (List.concat polygonss))).
Proof.
  intros Ht Hf Hmembers.
  rewrite (featureToH3Set_collection feature resolution options Ht), Hf.
  rewrite (Array_map_features resolution members polygonss Hmembers). simpl.
  rewrite <- (map_map (map (fun polygon => polyfill polygon resolution true)) union_dedup).
  rewrite union_dedup_nested, concat_map. reflexivity.
Qed.

(** The answers of the library, one per polygon, are its values. *)
Lemma Forall2_answers {A B : Type} (f : A -> B) (l : list A) (answers : list B) :
  Forall2 (fun x y => f x = y) l answers -> answers = map f l.
Proof.
  induction 1 as [| x y l answers Hx _ IH]; simpl; [reflexivity |].
  now rewrite Hx, IH.
Qed.

Lemma In_combine_map {A B : Type} (f : A -> B) (l : list A) (x : A) (y : B) :
  In (x, y) (combine l (map f l)) <-> In x l /\ y = f x.
Proof.
  induction l as [| a l IH]; simpl; [tauto |].
  rewrite IH. split.
  - intros [H | H]; [injection H as -> -> |]; tauto.
  - intros [[-> | H] ->]; tauto.
Qed.

(** The polygons of a geometry written as a Polygon or as a MultiPolygon. *)
Lemma polygons_of_written (geometry : Geometry) (polygons : list Polygon) :
  geometry = MultiPolygonGeometry polygons
  \/ (exists coordinates, geometry = PolygonGeometry coordinates /\ polygons = [coordinates]) ->
  polygons_of (Some geometry) = Return polygons.
Proof. intros [-> | [coordinates [-> ->]]]; reflexivity. Qed.

(** X7. Let a Feature have the given polygons, as a MultiPolygon or as the
    one polygon of a Polygon, and let [polyfill] return the given cells for
    each of them.  Without a truthy [ensureOutput] the Feature is filled
    with the [flatten] of these cells. *)
Theorem fill_without_ensureOutput
    (id : option CellId) (properties : option Properties)
    (features : option (list (GeoJSON Properties)))
    (geometry : Geometry) (polygons : list Polygon) (fills : list (list CellId))
    resolution options :
  geometry = MultiPolygonGeometry polygons
  \/ (exists coordinates, geometry = PolygonGeometry coordinates /\ polygons = [coordinates]) ->
  Forall2 (fun polygon cells => polyfill polygon resolution true = cells) polygons fills ->
  truthy (ensureOutput match options with Some o => o | None => empty_options end) = false ->
  featureToH3Set (mkGeoJSON FEATURE id properties (Some geometry) features) resolution options
  = Return (flatten fills).
Proof.
  intros Hgeometry Hfills Hensure.
  rewrite (Forall2_answers _ _ _ Hfills), flatten_union_dedup.
  apply featureToH3Set_no_ensure;
    [reflexivity | now apply polygons_of_written | assumption].
Qed.

(** X8. Let a Feature have the given polygons, and let [polyfill] return
    the given cells for each of them.  The Feature fails to be filled in one
    case only: [ensureOutput] is truthy and a polygon without rings was
    filled with no cell; what is thrown is the [TypeError] of [centroid]. *)
Theorem fill_feature_throws_iff
    (id : option CellId) (properties : option Properties)
    (features : option (list (GeoJSON Properties)))
    (geometry : Geometry) (polygons : list Polygon) (fills : list (list CellId))
    resolution options :
  geometry = MultiPolygonGeometry polygons
  \/ (exists coordinates, geometry = PolygonGeometry coordinates /\ polygons = [coordinates]) ->
  Forall2 (fun polygon cells => polyfill polygon resolution true = cells) polygons fills ->
  ((exists e,
      featureToH3Set (mkGeoJSON FEATURE id properties (Some geometry) features)
        resolution options = Throw e)
   <-> truthy (ensureOutput match options with Some o => o | None => empty_options end) = true
       /\ In ([], []) (combine polygons fills))
  /\ (forall e,
        featureToH3Set (mkGeoJSON FEATURE id properties (Some geometry) features)
          resolution options = Throw e ->
        e = TypeError).
Proof.
  intros Hgeometry Hfills.
  rewrite (Forall2_answers _ _ _ Hfills), In_combine_map.
  rewrite (featureToH3Set_feature
             (mkGeoJSON FEATURE id properties (Some geometry) features)
             resolution options polygons eq_refl (polygons_of_written _ _ Hgeometry)).
  set (o := match options with Some o => o | None => empty_options end).
  split.
  - transitivity (exists e, Array_map (polygonToH3Set resolution o) polygons = Throw e).
    + destruct (Array_map (polygonToH3Set resolution o) polygons) as [arrays | e']; simpl.
      * split; intros [e H]; discriminate.
      * split; intros _; now exists e'.
    + rewrite Array_map_Throw_iff. split.
      * intros [polygon [Hin Hthrow]].
        apply polygonToH3Set_Throw_iff in Hthrow. destruct Hthrow as [-> [He Hfill]].
        split; [assumption |]. split; [assumption | now symmetry].
      * intros [He [Hin Hfill]]. exists []. split; [assumption |].
        apply polygonToH3Set_Throw_iff. split; [reflexivity |]. split; [assumption | now symmetry].
  - intros e.
    destruct (Array_map (polygonToH3Set resolution o) polygons) as [arrays | e'] eqn:Em;
      simpl; [discriminate |].
    intros H. injection H as ->.
    destruct (Array_map_Throw _ _ _ Em) as [polygon [_ Hthrow]].
    eapply polygonToH3Set_Throw. eassumption.
Qed.

(** X9. Let a Feature have the given polygons, at least one, all of them
    with an outer ring, and let [polyfill] return the given cells for each
    of them.  Under a truthy [ensureOutput] the Feature is given at least one
    cell. *)
Theorem ensureOutput_gives_a_cell
    (id : option CellId) (properties : option Properties)
    (features : option (list (GeoJSON Properties)))
    (geometry : Geometry) (polygons : list Polygon) (fills : list (list CellId))
    resolution options :
  geometry = MultiPolygonGeometry polygons
  \/ (exists coordinates, geometry = PolygonGeometry coordinates /\ polygons = [coordinates]) ->
  Forall2 (fun polygon cells => polyfill polygon resolution true = cells) polygons fills ->
  polygons <> [] ->
  ~ In [] polygons ->
  truthy (ensureOutput match options with Some o => o | None => empty_options end) = true ->
  exists cells,
    featureToH3Set (mkGeoJSON FEATURE id properties (Some geometry) features)
      resolution options = Return cells
    /\ cells <> [].
Proof.
  intros Hgeometry _ Hsome Hrings Hensure.
  rewrite (featureToH3Set_feature
             (mkGeoJSON FEATURE id properties (Some geometry) features)
             resolution options polygons eq_refl (polygons_of_written _ _ Hgeometry)).
  set (o := match options with Some o => o | None => empty_options end) in *.
  set (cells_of := fun polygon : Polygon =>
    if negb (List.length (polyfill polygon resolution true) =? 0)%nat
       || negb (truthy (ensureOutput o))
    then polyfill polygon resolution true
    else [geoToH3 (snd (vertex_mean (nth 0 polygon []))) (fst (vertex_mean (nth 0 polygon [])))
            resolution]).
  rewrite (Array_map_Return _ cells_of).
  - simpl. eexists. split; [reflexivity |].
    rewrite union_dedup_nil_iff.
    destruct polygons as [| polygon polygons]; [congruence |].
    simpl. intros H. inversion H as [| ? ? Hnil _]; subst.
    unfold cells_of in Hnil. rewrite Hensure in Hnil. simpl in Hnil.
    destruct (polyfill polygon resolution true); simpl in Hnil; discriminate.
  - intros [| outer holes] Hin; [contradiction |].
    apply polygonToH3Set_ring.
Qed.

(** X10. The result for a FeatureCollection does not depend on [options]. *)
Theorem collection_ignores_options
    (id : option CellId) (properties : option Properties) (geometry : option Geometry)
    (features : option (list (GeoJSON Properties))) resolution options options' :
  featureToH3Set (mkGeoJSON FEATURE_COLLECTION id properties geometry features)
    resolution options
  = featureToH3Set (mkGeoJSON FEATURE_COLLECTION id properties geometry features)
      resolution options'.
Proof. rewrite 2 featureToH3Set_unfold. reflexivity. Qed.

(** X11. A FeatureCollection with one member is filled as that member is
    without options, whatever the member is. *)
Theorem collection_of_one_member
    (id : option CellId) (properties : option Properties) (geometry : option Geometry)
    (member : GeoJSON Properties) resolution options :
  featureToH3Set (mkGeoJSON FEATURE_COLLECTION id properties geometry (Some [member]))
    resolution options
  = featureToH3Set member resolution None.
Proof.
  rewrite featureToH3Set_collection by reflexivity. simpl.
  destruct (featureToH3Set member resolution None) as [cells | e] eqn:E; simpl;
    [| reflexivity].
  f_equal. apply union_dedup_singleton. eapply featureToH3Set_Return_NoDup. eassumption.
Qed.

(** X12. A FeatureCollection throws what its first failing member throws,
    when it is filled without options. *)
Theorem collection_first_failure
    (id : option CellId) (properties : option Properties) (geometry : option Geometry)
    (before after : list (GeoJSON Properties)) (member : GeoJSON Properties)
    resolution options (e : exn) :
  (forall f, In f before -> exists cells, featureToH3Set f resolution None = Return cells) ->
  featureToH3Set member resolution None = Throw e ->
  featureToH3Set
    (mkGeoJSON FEATURE_COLLECTION id properties geometry (Some (before ++ member :: after)))
    resolution options
  = Throw e.
Proof.
  intros Hbefore Hmember.
  rewrite featureToH3Set_collection by reflexivity. simpl.
  rewrite (Array_map_first_Throw _ before after member e Hbefore Hmember). reflexivity.
Qed.

(** X13. A FeatureCollection of Features with polygons is filled as one
    Feature whose MultiPolygon holds all their polygons, in order, is
    without options. *)
Theorem collection_as_one_multipolygon
    (id id' : option CellId) (properties properties' : option Properties)
    (unused : option Geometry) (features' : option (list (GeoJSON Properties)))
    (members : list (GeoJSON Properties)) (polygonss : list (list Polygon))
    resolution options :
  Forall2 (fun f polygons => type f = FEATURE /\ polygons_of (geometry f) = Return polygons)
    members polygonss ->
  featureToH3Set (mkGeoJSON FEATURE_COLLECTION id properties unused (Some members))
    resolution options
  = featureToH3Set
      (mkGeoJSON FEATURE id' properties'
         (Some (MultiPolygonGeometry (List.concat polygonss))) features')
      resolution None.
Proof.
  intros Hmembers.
  rewrite (featureToH3Set_collection_of_features
             (mkGeoJSON FEATURE_COLLECTION id properties unused (Some members))
             resolution options members polygonss eq_refl eq_refl Hmembers).
  symmetry. now apply featureToH3Set_no_ensure.
Qed.

End FillMore.

(** ** Emit, then fill *)

Section RoundTrip.

Context {Properties : Type} (empty_object : Properties) {h3 : H3}.

Implicit Types (hexagons : list CellId) (properties : option Properties).
Implicit Types (resolution : Z) (options : option Options).

Lemma concat_singletons {A B : Type} (f : A -> B) (l : list A) :
  List.concat (map (fun x => [f x]) l) = map f l.
Proof. induction l as [| x l IH]; simpl; [reflexivity | now rewrite IH]. Qed.

(** The features of [h3SetToFeatureCollection], as [map] gives them. *)
Lemma h3SetToFeatureCollection_features hexagons (getProperties : option (CellId -> Properties)) :
  features (h3SetToFeatureCollection empty_object hexagons getProperties)
  = Some (map (fun h3Index =>
                 h3ToFeature empty_object h3Index
                   (Some match getProperties with
                         | Some f => f h3Index
                         | None => empty_object
                         end))
            hexagons).
Proof.
  unfold h3SetToFeatureCollection. simpl.
  rewrite (push_features
             (fun h3Index =>
                h3ToFeature empty_object h3Index
                  (Some match getProperties with
                        | Some f => f h3Index
                        | None => empty_object
                        end))).
  reflexivity.
Qed.

(** X14. Let [polyfill] return the given cells for the boundary of a
    cell.  The feature of the cell is then filled with these cells, without
    duplicates, or, when there are none and [ensureOutput] is truthy, with
    the cell of the vertex mean of that boundary: [centroid] does not fail
    on it. *)
Theorem fill_cell_feature (h3Index : CellId) properties resolution options
    (cells : list CellId) :
  let ring := h3ToGeoBoundary h3Index ArgTrue in
  let o := match options with Some o => o | None => empty_options end in
  polyfill [ring] resolution true = cells ->
  featureToH3Set (h3ToFeature empty_object h3Index properties) resolution options
  = Return (flatten
              [if negb (List.length cells =? 0)%nat || negb (truthy (ensureOutput o))
               then cells
               else [geoToH3 (snd (vertex_mean ring)) (fst (vertex_mean ring)) resolution]]).
Proof.
  intros ring o <-.
  rewrite (featureToH3Set_feature (h3ToFeature empty_object h3Index properties)
             resolution options [[ring]] eq_refl eq_refl).
  fold o. simpl. rewrite polygonToH3Set_ring. simpl.
  now rewrite flatten_union_dedup.
Qed.

(** X15. Let [polyfill] return the given cells for the boundary of each
    cell of a set.  The collection of the features of these cells is then
    filled, under any options, with the [flatten] of these cells; the
    properties play no part. *)
Theorem fill_cell_collection hexagons (getProperties : option (CellId -> Properties))
    resolution options (fills : list (list CellId)) :
  Forall2
    (fun h3Index cells => polyfill [h3ToGeoBoundary h3Index ArgTrue] resolution true = cells)
    hexagons fills ->
  featureToH3Set (h3SetToFeatureCollection empty_object hexagons getProperties)
    resolution options
  = Return (flatten fills).
Proof.
  intros Hfills.
  rewrite (Forall2_answers
             (fun h3Index => polyfill [h3ToGeoBoundary h3Index ArgTrue] resolution true)
             _ _ Hfills).
  clear Hfills.
  rewrite (featureToH3Set_collection_of_features
             (h3SetToFeatureCollection empty_object hexagons getProperties)
             resolution options _
             (map (fun h3Index => [[h3ToGeoBoundary h3Index ArgTrue]]) hexagons)
             eq_refl (h3SetToFeatureCollection_features hexagons getProperties)).
  - rewrite concat_singletons, map_map, flatten_union_dedup. reflexivity.
  - induction hexagons as [| h hexagons IH]; simpl; constructor.
    + split; reflexivity.
    + exact IH.
Qed.

(** X16. Let [polyfill] return the given cells for the boundary of each
    cell of a set.  The MultiPolygon feature of these cells is then filled,
    cell by cell, with the cells returned or, when there are none and
    [ensureOutput] is truthy, with the cell of the vertex mean of the
    boundary: [centroid] does not fail on any of its polygons. *)
Theorem fill_multipolygon_feature_returns hexagons properties resolution options
    (fills : list (list CellId)) :
  let boundary := fun h3Index => h3ToGeoBoundary h3Index ArgGeoJsonObject in
  let o := match options with Some o => o | None => empty_options end in
  Forall2 (fun h3Index cells => polyfill [boundary h3Index] resolution true = cells)
    hexagons fills ->
  featureToH3Set (h3SetToMultiPolygonFeature empty_object hexagons properties)
    resolution options
  = Return (flatten
              (map (fun '(h3Index, cells) =>
                      if negb (List.length cells =? 0)%nat || negb (truthy (ensureOutput o))
                      then cells
                      else [geoToH3 (snd (vertex_mean (boundary h3Index)))
                              (fst (vertex_mean (boundary h3Index))) resolution])
                 (combine hexagons fills))).
Proof.
  intros boundary o Hfills.
  rewrite (Forall2_answers (fun h3Index => polyfill [boundary h3Index] resolution true)
             _ _ Hfills).
  clear Hfills.
  rewrite (featureToH3Set_feature
             (h3SetToMultiPolygonFeature empty_object hexagons properties)
             resolution options
             (map (fun h3Index => [boundary h3Index]) hexagons)
             eq_refl eq_refl).
  fold o.
  set (cells_of := fun polygon : Polygon =>
    if negb (List.length (polyfill polygon resolution true) =? 0)%nat
       || negb (truthy (ensureOutput o))
    then polyfill polygon resolution true
    else [geoToH3 (snd (vertex_mean (nth 0 polygon []))) (fst (vertex_mean (nth 0 polygon [])))
            resolution]).
  rewrite (Array_map_Return _ cells_of).
  - simpl. rewrite flatten_union_dedup. do 2 f_equal.
    induction hexagons as [| h hexagons IH]; simpl; [reflexivity |].
    now rewrite IH.
  - intros polygon Hin. apply in_map_iff in Hin. destruct Hin as [h [<- _]].
    apply polygonToH3Set_ring.
Qed.

(** X17. When the library draws the same boundary under [{geoJson: true}]
    as under [true], the MultiPolygon feature of a set of cells is filled,
    without options, as the collection of the features of these cells. *)
Theorem multipolygon_feature_filled_as_collection
    hexagons properties (getProperties : option (CellId -> Properties)) resolution options :
  (forall h3Index, In h3Index hexagons ->
     h3ToGeoBoundary h3Index ArgGeoJsonObject = h3ToGeoBoundary h3Index ArgTrue) ->
  featureToH3Set (h3SetToMultiPolygonFeature empty_object hexagons properties) resolution None
  = featureToH3Set (h3SetToFeatureCollection empty_object hexagons getProperties)
      resolution options.
Proof.
  intros Hsame.
  rewrite (featureToH3Set_no_ensure
             (h3SetToMultiPolygonFeature empty_object hexagons properties) resolution None
             (map (fun h3Index => [h3ToGeoBoundary h3Index ArgGeoJsonObject]) hexagons)
             eq_refl eq_refl eq_refl).
  rewrite (featureToH3Set_collection_of_features
             (h3SetToFeatureCollection empty_object hexagons getProperties)
             resolution options _
             (map (fun h3Index => [[h3ToGeoBoundary h3Index ArgTrue]]) hexagons)
             eq_refl (h3SetToFeatureCollection_features hexagons getProperties)).
  - rewrite concat_singletons, !map_map. do 2 f_equal.
    apply map_ext_in. intros h Hh. now rewrite (Hsame h Hh).
  - clear Hsame. induction hexagons as [| h hexagons IH]; simpl; constructor.
    + split; reflexivity.
    + exact IH.
Qed.

(** X18. The polygons [featureToH3Set] finds in the feature of
    [h3SetToFeature] are the outlines of the library again, whether the
    feature is a Polygon or a MultiPolygon; with no outline it finds one
    polygon without rings. *)
Theorem outlines_survive_unwrap hexagons properties :
  polygons_of (geometry (h3SetToFeature empty_object hexagons properties))
  = Return match h3SetToMultiPolygon hexagons true with
           | [] => [[]]
           | outlines => outlines
           end.
Proof.
  unfold h3SetToFeature. simpl.
  destruct (h3SetToMultiPolygon hexagons true) as [| outline [| second outlines]];
    reflexivity.
Qed.

(** X19. When the library has no outline for a set of cells and fills a
    polygon without rings with no cell, the feature of [h3SetToFeature] is
    filled with no cell, and under a truthy [ensureOutput] the filling
    throws a [TypeError]. *)
Theorem fill_feature_without_outline hexagons properties resolution options :
  h3SetToMultiPolygon hexagons true = [] ->
  polyfill [] resolution true = [] ->
  featureToH3Set (h3SetToFeature empty_object hexagons properties) resolution options
  = if truthy (ensureOutput match options with Some o => o | None => empty_options end)
    then Throw TypeError
    else Return [].
Proof.
  intros Hnone Hfill.
  assert (Hp : polygons_of (geometry (h3SetToFeature empty_object hexagons properties))
               = Return [[]]).
  { unfold h3SetToFeature. simpl. rewrite Hnone. reflexivity. }
  rewrite (featureToH3Set_feature (h3SetToFeature empty_object hexagons properties)
             resolution options [[]] eq_refl Hp).
  simpl. unfold polygonToH3Set. rewrite Hfill. simpl.
  destruct (truthy (ensureOutput _)); reflexivity.
Qed.

(** X20. When the library draws the same boundary under [{geoJson: true}]
    as under [true], the polygons of the MultiPolygon feature of a set of
    cells are, one by one, the polygons of the features of the collection. *)
Theorem multipolygon_feature_collects_cell_features
    hexagons properties (getProperties : option (CellId -> Properties)) :
  (forall h3Index, In h3Index hexagons ->
     h3ToGeoBoundary h3Index ArgGeoJsonObject = h3ToGeoBoundary h3Index ArgTrue) ->
  exists (cell_features : list (GeoJSON Properties)) (coordinates : list Polygon),
    features (h3SetToFeatureCollection empty_object hexagons getProperties)
    = Some cell_features
    /\ geometry (h3SetToMultiPolygonFeature empty_object hexagons properties)
       = Some (MultiPolygonGeometry coordinates)
    /\ Forall2 (fun f polygon => geometry f = Some (PolygonGeometry polygon))
         cell_features coordinates.
Proof.
  intros Hsame. eexists. eexists.
  split; [apply h3SetToFeatureCollection_features |].
  split; [reflexivity |].
  induction hexagons as [| h hexagons IH]; simpl; constructor.
  - rewrite (Hsame h (or_introl eq_refl)). reflexivity.
  - apply IH. intros h' Hh'. apply Hsame. now right.
Qed.

End RoundTrip.

(** ** The further statements at the examples *)

(** The triangle and the square at resolution 9, without options. *)
Lemma fill_without_ensureOutput_witness :
  featureToH3Set (h3 := tiny_h3) two_polygons_feature 9 None
  = Return (flatten [["8928308280fffff"; "8928308280bffff"];
                     ["8928308280bffff"; "89283082803ffff"]]).
Proof.
  apply (fill_without_ensureOutput (h3 := tiny_h3) None (Some ([] : JsObject)) None
           (MultiPolygonGeometry [triangle; square]) [triangle; square]
           [["8928308280fffff"; "8928308280bffff"]; ["8928308280bffff"; "89283082803ffff"]]
           9 None).
  - left. reflexivity.
  - repeat constructor.
  - reflexivity.
Defined.

(** A Polygon without rings at resolution 7, where the small grid fills
    nothing. *)
Lemma fill_feature_throws_iff_witness :
  (exists e,
     featureToH3Set (h3 := tiny_h3)
       (mkGeoJSON FEATURE None (None : option JsObject) (Some (PolygonGeometry [])) None)
       7 (Some ensure_output) = Throw e)
  <-> truthy (ensureOutput ensure_output) = true
      /\ In (([] : Polygon), ([] : list CellId)) (combine [[]] [[]]).
Proof.
  apply (fill_feature_throws_iff (h3 := tiny_h3) None (None : option JsObject) None
           (PolygonGeometry []) [[]] [[]] 7 (Some ensure_output)).
  - right. exists []. split; reflexivity.
  - repeat constructor.
Defined.

(** The triangle at resolution 7 under [{ensureOutput: true}]. *)
Lemma ensureOutput_gives_a_cell_witness :
  exists cells,
    featureToH3Set (h3 := tiny_h3) triangle_feature 7 (Some ensure_output) = Return cells
    /\ cells <> [].
Proof.
  apply (ensureOutput_gives_a_cell (h3 := tiny_h3) None (Some ([] : JsObject)) None
           (PolygonGeometry triangle) [triangle] [[]] 7 (Some ensure_output)).
  - right. exists triangle. split; reflexivity.
  - repeat constructor.
  - discriminate.
  - intros [H | []]. discriminate.
  - reflexivity.
Defined.

(** A cell of the small grid at resolution 9. *)
Lemma fill_cell_feature_witness :
  featureToH3Set (h3 := tiny_h3)
    (h3ToFeature (h3 := tiny_h3) ([] : JsObject) "8928308280fffff" None) 9 None
  = Return (flatten [["8928308280bffff"; "89283082803ffff"]]).
Proof.
  apply (fill_cell_feature (h3 := tiny_h3) ([] : JsObject) "8928308280fffff" None 9 None
           ["8928308280bffff"; "89283082803ffff"]).
  reflexivity.
Defined.

(** Two cells of the small grid at resolution 9. *)
Lemma fill_cell_collection_witness :
  featureToH3Set (h3 := tiny_h3)
    (h3SetToFeatureCollection (h3 := tiny_h3) ([] : JsObject)
       ["8928308280fffff"; "8928308280bffff"] None)
    9 (Some ensure_output)
  = Return (flatten [["8928308280bffff"; "89283082803ffff"];
                     ["8928308280bffff"; "89283082803ffff"]]).
Proof.
  apply (fill_cell_collection (h3 := tiny_h3) ([] : JsObject)
           ["8928308280fffff"; "8928308280bffff"] None 9 (Some ensure_output)
           [["8928308280bffff"; "89283082803ffff"]; ["8928308280bffff"; "89283082803ffff"]]).
  repeat constructor.
Defined.

(** Two cells of the small grid at resolution 7, where it fills nothing. *)
Lemma fill_multipolygon_feature_returns_witness :
  featureToH3Set (h3 := tiny_h3)
    (h3SetToMultiPolygonFeature (h3 := tiny_h3) ([] : JsObject)
       ["8928308280fffff"; "8928308280bffff"] None)
    7 (Some ensure_output)
  = Return (flatten
              [[geoToH3 (H3 := tiny_h3) (snd (vertex_mean unit_hexagon))
                  (fst (vertex_mean unit_hexagon)) 7];
               [geoToH3 (H3 := tiny_h3) (snd (vertex_mean unit_hexagon))
                  (fst (vertex_mean unit_hexagon)) 7]]).
Proof.
  apply (fill_multipolygon_feature_returns (h3 := tiny_h3) ([] : JsObject)
           ["8928308280fffff"; "8928308280bffff"] None 7 (Some ensure_output) [[]; []]).
  repeat constructor.
Defined.

(** The triangle, then a Point. *)
Lemma collection_first_failure_witness :
  featureToH3Set (h3 := tiny_h3)
    (mkGeoJSON FEATURE_COLLECTION None None None (Some ([triangle_feature] ++ [point_feature])))
    9 None
  = Throw (Error "Unhandled geometry type: Point").
Proof.
  apply (collection_first_failure (h3 := tiny_h3) None None None
           [triangle_feature] [] point_feature 9 None).
  - intros f [<- | []]. eexists. reflexivity.
  - reflexivity.
Defined.

(** The triangle, then the triangle and the square. *)
Lemma collection_as_one_multipolygon_witness :
  featureToH3Set (h3 := tiny_h3)
    (mkGeoJSON FEATURE_COLLECTION None None None
       (Some [triangle_feature; two_polygons_feature]))
    9 None
  = featureToH3Set (h3 := tiny_h3)
      (mkGeoJSON FEATURE None (None : option JsObject)
         (Some (MultiPolygonGeometry (List.concat [[triangle]; [triangle; square]]))) None)
      9 None.
Proof.
  apply (collection_as_one_multipolygon (h3 := tiny_h3) None None None None None None
           [triangle_feature; two_polygons_feature] [[triangle]; [triangle; square]] 9 None).
  repeat constructor.
Defined.

(** The small grid draws one boundary, whatever the second argument. *)
Lemma multipolygon_feature_filled_as_collection_witness :
  featureToH3Set (h3 := tiny_h3)
    (h3SetToMultiPolygonFeature (h3 := tiny_h3) ([] : JsObject) ["8928308280fffff"; "8928308280bffff"] None)
    9 None
  = featureToH3Set (h3 := tiny_h3)
      (h3SetToFeatureCollection (h3 := tiny_h3) ([] : JsObject) ["8928308280fffff"; "8928308280bffff"] None)
      9 (Some ensure_output).
Proof.
  apply (multipolygon_feature_filled_as_collection (h3 := tiny_h3) ([] : JsObject)
           ["8928308280fffff"; "8928308280bffff"] None None 9 (Some ensure_output)).
  intros h3Index _. reflexivity.
Defined.

(** The empty set of cells on the small grid. *)
Lemma fill_feature_without_outline_witness :
  featureToH3Set (h3 := tiny_h3) (h3SetToFeature (h3 := tiny_h3) ([] : JsObject) [] None)
    7 (Some ensure_output)
  = Throw TypeError.
Proof.
  apply (fill_feature_without_outline (h3 := tiny_h3) ([] : JsObject) [] None 7
           (Some ensure_output));
    reflexivity.
Defined.

(** Two cells on the small grid. *)
Lemma multipolygon_feature_collects_cell_features_witness :
  exists (cell_features : list (GeoJSON JsObject)) (coordinates : list Polygon),
    features (h3SetToFeatureCollection (h3 := tiny_h3) ([] : JsObject)
                ["8928308280fffff"; "8928308280bffff"] None)
    = Some cell_features
    /\ geometry (h3SetToMultiPolygonFeature (h3 := tiny_h3) ([] : JsObject)
                   ["8928308280fffff"; "8928308280bffff"] None)
       = Some (MultiPolygonGeometry coordinates)
    /\ Forall2 (fun f polygon => geometry f = Some (PolygonGeometry polygon))
         cell_features coordinates.
Proof.
  apply (multipolygon_feature_collects_cell_features (h3 := tiny_h3) ([] : JsObject)
           ["8928308280fffff"; "8928308280bffff"] None None).
  intros h3Index _. reflexivity.
Defined.
